(** * Monitored slice: state machine, derived view and reconciliation engine

    A shallow embedding of [createMonitoredSlice] (src/index.ts) and the
    properties of its reducers, selectors and [load] thunk.

    JavaScript objects are finite maps from property names to values, so that
    object spread, property assignment and caller-defined extra fields are the
    map operations they are at run time.  Exceptions are an explicit [result];
    the store, the closure variable [previousParams] and the observable effects
    of the thunk are threaded through a small state-and-exception monad. *)

From stdpp Require Import gmap strings list fin_maps.

Set Warnings "-register-all".

(** ** JavaScript values *)

(** The serialisable values a Redux state tree, an action payload or a loader
    parameter can hold.  Numbers are the integral ones. *)
Inductive value : Type :=
  | VUndefined
  | VNull
  | VBool (b : bool)
  | VNum (n : Z)
  | VStr (s : string)
  | VArr (items : list value)
  | VObj (fields : gmap string value).

(** ToBoolean: what [if (v)], [v && w] and [!v] test. *)
Definition truthy (v : value) : bool :=
  match v with
  | VUndefined | VNull => false
  | VBool b => b
  | VNum n => negb (n =? 0)%Z
  | VStr s => negb (String.eqb s "")
  | VArr _ | VObj _ => true
  end.

(** An optional boolean option ([resetOnStale?: boolean]) used as a condition:
    [undefined] is falsy. *)
Definition truthy_opt (o : option bool) : bool := default false o.

(** Reading property [k] of an object: [undefined] when it is absent. *)
Definition field (o : gmap string value) (k : string) : value :=
  default VUndefined (o !! k).

(** ** Exceptions *)

Inductive exn : Type :=
  | TypeError                (* property read on [undefined] or [null] *)
  | Thrown (reason : value). (* a rejection or throw of caller code *)

Inductive result (A : Type) : Type :=
  | Ok (a : A)
  | Throw (e : exn).
Arguments Ok {A} a.
Arguments Throw {A} e.

Definition rbind {A B} (m : result A) (k : A → result B) : result B :=
  match m with
  | Ok a => k a
  | Throw e => Throw e
  end.

Notation "'let?' x ':=' m 'in' k" := (rbind m (λ x, k))
  (at level 10, x name, m at level 100, k at level 200).

(** ** Redux actions and slices *)

Record action : Type := Action { type : string; payload : value }.

(** A case reducer, as [createSlice] runs it under Immer: it receives the
    current state and the action and yields the next state; when it throws the
    draft is dropped and the exception leaves the reducer. *)
Definition CaseReducer : Type := gmap string value → action → result (gmap string value).

(** [s] without its prefix [p], when it has it. *)
Fixpoint strip_prefix (p s : string) : option string :=
  match p, s with
  | EmptyString, _ => Some s
  | String c p', String d s' => if Ascii.eqb c d then strip_prefix p' s' else None
  | String _ _, EmptyString => None
  end.

(** What [createSlice] is given and what it returns (the parts used here). *)
Record CreateSliceOptions : Type := {
  cso_name : string;
  cso_initialState : gmap string value;
  cso_reducers : gmap string CaseReducer;
}.

(** The action type [createSlice] gives the reducer under key [key]. *)
Definition getType (slice key : string) : string := slice +:+ "/" +:+ key.

(** [slice.actions[key](payload)] *)
Definition actions (o : CreateSliceOptions) (key : string) (p : value) : action :=
  {| type := getType (cso_name o) key; payload := p |}.

(** The case reducer registered for an action type: the one under the key
    [k] with [getType name k] equal to the type. *)
Definition caseReducerFor (o : CreateSliceOptions) (ty : string) : option CaseReducer :=
  match strip_prefix (cso_name o +:+ "/") ty with
  | Some key => cso_reducers o !! key
  | None => None
  end.

(** [slice.reducer(state, action)]: an [undefined] state is the initial state;
    an action no case reducer is registered for leaves the state as it is. *)
Definition reducer (o : CreateSliceOptions) (state : option (gmap string value))
    (a : action) : result (gmap string value) :=
  let state := default (cso_initialState o) state in
  match caseReducerFor o (type a) with
  | Some r => r state a
  | None => Ok state
  end.

(** ** createMonitoredSlice *)

(** [IMonitoredSliceOptions & CreateSliceOptions]: the slice name, the
    caller's extra state fields and extra reducers, and the two policies. *)
Record Options : Type := {
  name : string;
  initialState : gmap string value;
  reducers : gmap string CaseReducer;
  resetOnStale : option bool;
  resetOnLoading : option bool;
}.

(** [action.payload.data] *)
Definition payload_data (p : value) : result value :=
  match p with
  | VUndefined | VNull => Throw TypeError
  | VObj fields => Ok (field fields "data")
  | VBool _ | VNum _ | VStr _ | VArr _ => Ok VUndefined
  end.

(** ** Selectors *)

(** [createSelector(input, combiner)].  A selector is a pure function of the
    root state, so the memoised selector returns what the plain composition
    returns. *)
Definition createSelector {R A B} (input : R → result A) (combiner : A → result B)
    : R → result B :=
  λ root, let? a := input root in combiner a.

Definition createSelector3 {R A B C D} (in1 : R → result A) (in2 : R → result B)
    (in3 : R → result C) (combiner : A → B → C → result D) : R → result D :=
  λ root,
    let? a := in1 root in
    let? b := in2 root in
    let? c := in3 root in
    combiner a b c.

(** Property read [slice.k] on what [selectSlice] returned. *)
Definition prop (slice : option (gmap string value)) (k : string) : result value :=
  match slice with
  | Some o => Ok (field o k)
  | None => Throw TypeError
  end.

Section MonitoredSlice.

Variable options : Options.
Variable initialData : value.

Definition makeStale : CaseReducer := λ state _,
  let state := <["stale" := VBool true]> state in
  if truthy_opt (resetOnStale options)
  then Ok (<["data" := initialData]> state)
  else Ok state.

Definition makeLoading : CaseReducer := λ state _,
  Ok (<["loading" := VBool true]> state).

Definition fulfill : CaseReducer := λ state action,
  let state := <["stale" := VBool false]> state in
  let state := <["loading" := VBool false]> state in
  let? data := payload_data (payload action) in
  Ok (<["data" := data]> state).

(** The argument of [createSlice]: in both object literals the caller's
    entries are spread first and the built-in ones are written after. *)
Definition sliceOptions : CreateSliceOptions := {|
  cso_name := name options;
  cso_initialState :=
    <["data" := initialData]>
      (<["loading" := VBool false]>
        (<["stale" := VBool true]> (initialState options)));
  cso_reducers :=
    <["fulfill" := fulfill]>
      (<["makeLoading" := makeLoading]>
        (<["makeStale" := makeStale]> (reducers options)));
|}.

(** [slice.reducer] *)
Definition sliceReducer : option (gmap string value) → action → result (gmap string value) :=
  reducer sliceOptions.

(** [slice.actions.makeStale(null)], [slice.actions.makeLoading(null)] and
    [slice.actions.fulfill({ data })] *)
Definition makeStaleAction : action := actions sliceOptions "makeStale" VNull.
Definition makeLoadingAction : action := actions sliceOptions "makeLoading" VNull.
Definition fulfillAction (data : value) : action :=
  actions sliceOptions "fulfill" (VObj (<["data" := data]> ∅)).

(** The four selectors. *)

(** [(state) => state[options.name]], [undefined] when the root state has
    no such key. *)
Definition selectSlice : gmap string (gmap string value) → result (option (gmap string value)) :=
  createSelector (λ state, Ok (state !! name options)) (λ slice, Ok slice).

Definition selectStale : gmap string (gmap string value) → result value :=
  createSelector selectSlice (λ slice, prop slice "stale").

Definition selectLoading : gmap string (gmap string value) → result value :=
  createSelector selectSlice (λ slice, prop slice "loading").

Definition selectData : gmap string (gmap string value) → result value :=
  createSelector3 selectSlice selectStale selectLoading (λ slice stale loading,
    if truthy stale && truthy_opt (resetOnStale options) then Ok initialData
    else if truthy loading && truthy_opt (resetOnLoading options) then Ok initialData
    else prop slice "data").

End MonitoredSlice.

(** ** The store and the reconciliation engine *)

(** What the thunk does that the outside can observe, oldest first. *)
Inductive effect : Type :=
  | Dispatched (a : action)
  | LoaderCalled (params : value).

(** The store's state, the closure variable [previousParams] of
    [createMonitoredSlice], and the effects so far. *)
Record World : Type := {
  store_state : gmap string (gmap string value);
  previousParams : value;
  trace : list effect;
}.

(** Computations over the world that may throw; what was written before a
    throw stays written. *)
Definition M (A : Type) : Type := World → World * result A.

Definition ret {A} (a : A) : M A := λ w, (w, Ok a).

Definition throw {A} (e : exn) : M A := λ w, (w, Throw e).

Definition bind {A B} (m : M A) (k : A → M B) : M B := λ w,
  match m w with
  | (w', Ok a) => k a w'
  | (w', Throw e) => (w', Throw e)
  end.

Definition lift {A} (r : result A) : M A := λ w, (w, r).

Notation "'let!' x ':=' m 'in' k" := (bind m (λ x, k))
  (at level 10, x name, m at level 100, k at level 200).

Notation "m ';;' k" := (bind m (λ _, k))
  (at level 100, k at level 200, right associativity).

(** How the synchronous part of the thunk ends: it returned, or it is
    suspended at [await loader(params)] holding its [params]. *)
Inductive suspension : Type :=
  | Returned
  | Awaiting (params : value).

(** How the loader's promise settles. *)
Inductive settlement : Type :=
  | Resolved (data : value)
  | Rejected (reason : value).

Section Reconciliation.

Variable options : Options.
Variable initialData : value.

(** [deepEqual] of the deep-equal package. *)
Variable deepEqual : value → value → bool.

(** [loaderParamsSelector], [null] by default. *)
Variable loaderParamsSelector : option (gmap string (gmap string value) → result value).

(** The reducers of the rest of the store: what they make of the root state
    on an action.  The slice's reducer is mounted under [options.name],
    where [selectSlice] reads it. *)
Variable otherReducers : gmap string (gmap string value) → action → gmap string (gmap string value).

Definition storeReducer (root : gmap string (gmap string value)) (a : action)
    : result (gmap string (gmap string value)) :=
  let? next := sliceReducer options initialData (root !! name options) a in
  Ok (<[name options := next]> (otherReducers root a)).

Definition getState : M (gmap string (gmap string value)) :=
  λ w, (w, Ok (store_state w)).

(** [dispatch(action)]: the store's state is replaced by what its reducer
    returns; a throwing reducer leaves it as it was. *)
Definition dispatch (a : action) : M unit := λ w,
  let w := {| store_state := store_state w; previousParams := previousParams w;
              trace := trace w ++ [Dispatched a] |} in
  match storeReducer (store_state w) a with
  | Ok root => ({| store_state := root; previousParams := previousParams w;
                   trace := trace w |}, Ok tt)
  | Throw e => (w, Throw e)
  end.

Definition readPreviousParams : M value := λ w, (w, Ok (previousParams w)).

Definition writePreviousParams (params : value) : M unit := λ w,
  ({| store_state := store_state w; previousParams := params; trace := trace w |}, Ok tt).

(** [loader(params)]: the call is made and the thunk suspends on its promise. *)
Definition callLoader (params : value) : M suspension := λ w,
  ({| store_state := store_state w; previousParams := previousParams w;
      trace := trace w ++ [LoaderCalled params] |}, Ok (Awaiting params)).

(** [loaderParamsSelector ? loaderParamsSelector(state) : null] *)
Definition loaderParams (state : gmap string (gmap string value)) : result value :=
  match loaderParamsSelector with
  | Some selector => selector state
  | None => Ok VNull
  end.

(** [(stale && !loading) || !deepEqual(previousParams, params)] *)
Definition needsLoad (stale loading previous params : value) : bool :=
  (truthy stale && negb (truthy loading)) || negb (deepEqual previous params).

(** The thunk [load()] up to its [await]. *)
Definition load_begin : M suspension :=
  let! state := getState in
  let! loading := lift (selectLoading options state) in
  let! stale := lift (selectStale options state) in
  let! params := lift (loaderParams state) in
  let! previous := readPreviousParams in
  if needsLoad stale loading previous params then
    writePreviousParams params ;;
    dispatch (makeLoadingAction options initialData) ;;
    callLoader params
  else ret Returned.

(** The thunk [load()] from its [await] on, when the promise has settled.
    A rejection is rethrown by [await]; nothing in the thunk catches it. *)
Definition load_resume (params : value) (s : settlement) : M unit :=
  match s with
  | Rejected reason => throw (Thrown reason)
  | Resolved data =>
      let! previous := readPreviousParams in
      if deepEqual previous params
      then dispatch (fulfillAction options initialData data)
      else ret tt
  end.

(** A run of [load()] with nothing else happening between the call of the
    loader and the settling of its promise. *)
Definition load (s : settlement) : M unit :=
  let! r := load_begin in
  match r with
  | Awaiting params => load_resume params s
  | Returned => ret tt
  end.

(** Suspended runs whose promises settle one after the other, in the order
    of the list.  Each run is its own promise chain: a rejection in one
    does not stop the next. *)
Fixpoint settle_all (runs : list (value * settlement)) (w : World) : World :=
  match runs with
  | [] => w
  | (params, s) :: rest => settle_all rest (load_resume params s w).1
  end.

(** The effect of [useMonitoredData], run with the values the hook selected
    when it rendered. *)
Definition useMonitoredData_effect (stale loading params : value) : M suspension :=
  let! previous := readPreviousParams in
  if needsLoad stale loading previous params
  then load_begin
  else ret Returned.

End Reconciliation.

(** ** Sequences of the built-in actions *)

Inductive CoreAction : Type :=
  | MakeStale
  | MakeLoading
  | Fulfill (v : value).

(** The action each one dispatches, made by the slice's action creators. *)
Definition coreAction (options : Options) (initialData : value) (c : CoreAction) : action :=
  match c with
  | MakeStale => makeStaleAction options initialData
  | MakeLoading => makeLoadingAction options initialData
  | Fulfill v => fulfillAction options initialData v
  end.

(** [actions.reduce(reducer, state)], stopping at the first throw. *)
Fixpoint reduceAll (r : option (gmap string value) → action → result (gmap string value))
    (state : gmap string value) (l : list action) : result (gmap string value) :=
  match l with
  | [] => Ok state
  | a :: l' => let? next := r (Some state) a in reduceAll r next l'
  end.

(** The [loading] flag a sequence of built-in actions leaves, given the one
    it starts from. *)
Definition loadingAfter (b : bool) (l : list CoreAction) : bool :=
  foldl (λ b c, match c with
                | MakeStale => b
                | MakeLoading => true
                | Fulfill _ => false
                end) b l.

(** ** Callers whose entries collide with the built-in ones *)

(** [options] with [reducers[key] = r]. *)
Definition withReducer (key : string) (r : CaseReducer) (o : Options) : Options :=
  {| name := name o; initialState := initialState o;
     reducers := <[key := r]> (reducers o);
     resetOnStale := resetOnStale o; resetOnLoading := resetOnLoading o |}.

(** [options] with [initialState[k] = v]. *)
Definition withField (k : string) (v : value) (o : Options) : Options :=
  {| name := name o; initialState := <[k := v]> (initialState o);
     reducers := reducers o;
     resetOnStale := resetOnStale o; resetOnLoading := resetOnLoading o |}.

(** ** The widgets story

    The slice of the Storybook story: widgets loaded for the factory selected
    in another slice of the store. *)
Module Widgets.

Definition selectWidget : CaseReducer := λ state action,
  Ok (<["selected" := payload action]> state).

Definition options : Options :=
  {| name := "widgetsSlice";
     initialState := <["selected" := VNull]> ∅;
     reducers := <["selectWidget" := selectWidget]> ∅;
     resetOnStale := Some false;
     resetOnLoading := Some true |}.

Definition initialData : value := VArr [].

(** [factorySlice.reducer]: [selectFactory] stores its payload. *)
Definition factoryReducer (state : gmap string value) (a : action) : gmap string value :=
  if String.eqb (type a) "factorySlice/selectFactory"
  then <["factoryId" := payload a]> state
  else state.

Definition otherReducers (root : gmap string (gmap string value)) (a : action)
    : gmap string (gmap string value) :=
  <["factorySlice" :=
      factoryReducer (default (<["factoryId" := VNull]> ∅) (root !! "factorySlice")) a]> root.

(** [selectedFactory] *)
Definition selectedFactory (root : gmap string (gmap string value)) : result value :=
  createSelector (λ state, Ok (state !! "factorySlice"))
    (λ slice, prop slice "factoryId") root.

(** Deep equality on factory ids, which are numbers or [null]. *)
Definition deepEqual (a b : value) : bool :=
  match a, b with
  | VNull, VNull => true
  | VNum n, VNum m => (n =? m)%Z
  | _, _ => false
  end.

(** A widget list as the story's loader builds it. *)
Definition widgets (factoryId : Z) : value :=
  VArr [VObj (<["factoryId" := VNum factoryId]> ∅)].

(** The store as [configureStore] leaves it, factory 1 selected. *)
Definition root1 : gmap string (gmap string value) :=
  <["factorySlice" := <["factoryId" := VNum 1]> ∅]>
    (<["widgetsSlice" := cso_initialState (sliceOptions options initialData)]> ∅).

Definition world1 : World :=
  {| store_state := root1; previousParams := VNull; trace := [] |}.

(** [factorySlice.actions.selectFactory(id)] *)
Definition selectFactory (id : Z) : action :=
  {| type := "factorySlice/selectFactory"; payload := VNum id |}.

(** A first run of the thunk, suspended on the widgets of factory 1. *)
Definition world2 : World :=
  (load_begin options initialData deepEqual (Some selectedFactory) otherReducers world1).1.

(** Factory 2 is selected while that load is in flight. *)
Definition world3 : World :=
  (dispatch options initialData otherReducers (selectFactory 2) world2).1.

(** A second run, suspended on the widgets of factory 2. *)
Definition world4 : World :=
  (load_begin options initialData deepEqual (Some selectedFactory) otherReducers world3).1.

(** The same store while a load is in flight. *)
Definition loadingSlice : gmap string value :=
  <["loading" := VBool true]> (cso_initialState (sliceOptions options initialData)).

End Widgets.

(** ** The monitoring hook *)

(** [a || b] *)
Definition or_js (a b : value) : value := if truthy a then a else b.

(** [selectNull] *)
Definition selectNull : gmap string (gmap string value) → result value :=
  createSelector (λ _, Ok VNull) (λ _ : value, Ok VNull).

(** What [useMonitoredData] returns: [{ data, loading, makeStale }]. *)
Record IUseMonitoredData : Type := {
  hook_data : value;
  hook_loading : value;
  hook_makeStale : M unit;
}.

Section Monitoring.

Variable options : Options.
Variable initialData : value.
Variable deepEqual : value → value → bool.
Variable loaderParamsSelector : option (gmap string (gmap string value) → result value).
Variable otherReducers : gmap string (gmap string value) → action → gmap string (gmap string value).

(** One render of [useMonitoredData] against the store's state: the object
    it returns and the effect it hands to [useEffect]. *)
Definition useMonitoredData (state : gmap string (gmap string value))
    : result (IUseMonitoredData * M suspension) :=
  let? stale := selectStale options state in
  let? loading := selectLoading options state in
  let? data := selectData options initialData state in
  let? params := default selectNull loaderParamsSelector state in
  Ok ({| hook_data := data;
         hook_loading := or_js stale loading;
         hook_makeStale :=
           dispatch options initialData otherReducers (makeStaleAction options initialData) |},
      useMonitoredData_effect options initialData deepEqual loaderParamsSelector
        otherReducers stale loading params).

End Monitoring.

(** The widgets slice configured to reset its data when stale. *)
Module WidgetsReset.

Definition options : Options :=
  {| name := name Widgets.options;
     initialState := initialState Widgets.options;
     reducers := reducers Widgets.options;
     resetOnStale := Some true;
     resetOnLoading := None |}.

(** The slice holding the widgets of factory 1. *)
Definition loadedSlice : gmap string value :=
  <["data" := Widgets.widgets 1]>
    (<["loading" := VBool false]>
      (<["stale" := VBool false]> (<["selected" := VNull]> ∅))).

(** The store, and the world, once these widgets are loaded. *)
Definition loadedRoot : gmap string (gmap string value) :=
  <["widgetsSlice" := loadedSlice]> Widgets.root1.

Definition loadedWorld : World :=
  {| store_state := loadedRoot; previousParams := VNum 1; trace := [] |}.

End WidgetsReset.

(** * Properties *)

(** ** Action types and the case reducer they reach *)

Lemma append_assoc (p q s : string) : (p +:+ q) +:+ s = p +:+ (q +:+ s).
Proof.
  induction p as [|c p IH]; [done|].
  change (String c ((p +:+ q) +:+ s) = String c (p +:+ (q +:+ s))).
  by rewrite IH.
Qed.

Lemma strip_prefix_append (p s : string) : strip_prefix p (p +:+ s) = Some s.
Proof.
  induction p as [|c p IH]; [done|].
  change (String c p +:+ s) with (String c (p +:+ s)).
  simpl. by rewrite Ascii.eqb_refl.
Qed.

Lemma caseReducerFor_getType (o : CreateSliceOptions) (key : string) :
  caseReducerFor o (getType (cso_name o) key) = cso_reducers o !! key.
Proof.
  unfold caseReducerFor, getType.
  by rewrite <- append_assoc, strip_prefix_append.
Qed.

Section SliceFacts.

Variable options : Options.
Variable initialData : value.

Lemma builtin_makeStale :
  cso_reducers (sliceOptions options initialData) !! "makeStale"
  = Some (makeStale options initialData).
Proof. simpl. by simplify_map_eq. Qed.

Lemma builtin_makeLoading :
  cso_reducers (sliceOptions options initialData) !! "makeLoading" = Some makeLoading.
Proof. simpl. by simplify_map_eq. Qed.

Lemma builtin_fulfill :
  cso_reducers (sliceOptions options initialData) !! "fulfill" = Some fulfill.
Proof. simpl. by simplify_map_eq. Qed.

Lemma sliceReducer_makeStale (state : option (gmap string value)) (p : value) :
  sliceReducer options initialData state
    {| type := getType (name options) "makeStale"; payload := p |}
  = makeStale options initialData
      (default (cso_initialState (sliceOptions options initialData)) state)
      {| type := getType (name options) "makeStale"; payload := p |}.
Proof.
  unfold sliceReducer, reducer.
  change (name options) with (cso_name (sliceOptions options initialData)).
  cbn [type]. by rewrite caseReducerFor_getType, builtin_makeStale.
Qed.

Lemma sliceReducer_makeLoading (state : option (gmap string value)) (p : value) :
  sliceReducer options initialData state
    {| type := getType (name options) "makeLoading"; payload := p |}
  = Ok (<["loading" := VBool true]>
          (default (cso_initialState (sliceOptions options initialData)) state)).
Proof.
  unfold sliceReducer, reducer.
  change (name options) with (cso_name (sliceOptions options initialData)).
  cbn [type]. by rewrite caseReducerFor_getType, builtin_makeLoading.
Qed.

Lemma sliceReducer_fulfill (state : option (gmap string value)) (p : value) :
  sliceReducer options initialData state
    {| type := getType (name options) "fulfill"; payload := p |}
  = fulfill (default (cso_initialState (sliceOptions options initialData)) state)
      {| type := getType (name options) "fulfill"; payload := p |}.
Proof.
  unfold sliceReducer, reducer.
  change (name options) with (cso_name (sliceOptions options initialData)).
  cbn [type]. by rewrite caseReducerFor_getType, builtin_fulfill.
Qed.

End SliceFacts.

(** ** Object literals: a property written after a spread overwrites it *)

Section InsertAbsorbed.

Context {A : Type}.
Implicit Types (m : gmap string A) (a b c : string).

Lemma insert_absorbed_1 m a (x v : A) :
  <[a := x]> (<[a := v]> m) = <[a := x]> m.
Proof. apply insert_insert_eq. Qed.

Lemma insert_absorbed_2 m a b (x y v : A) :
  <[a := x]> (<[b := y]> (<[a := v]> m)) = <[a := x]> (<[b := y]> m).
Proof.
  apply map_eq; intros i.
  destruct (decide (i = a)) as [->|?]; [by rewrite !lookup_insert_eq|].
  destruct (decide (i = b)) as [->|?]; by simplify_map_eq.
Qed.

Lemma insert_absorbed_3 m a b c (x y z v : A) :
  <[a := x]> (<[b := y]> (<[c := z]> (<[a := v]> m)))
  = <[a := x]> (<[b := y]> (<[c := z]> m)).
Proof.
  apply map_eq; intros i.
  destruct (decide (i = a)) as [->|?]; [by rewrite !lookup_insert_eq|].
  destruct (decide (i = b)) as [->|?]; [by simplify_map_eq|].
  destruct (decide (i = c)) as [->|?]; by simplify_map_eq.
Qed.

End InsertAbsorbed.

(** ** The slice state machine *)

(** C3: whatever the prior state (any [stale], [loading] and [data], any extra
    fields), the [fulfill] action whose payload carries [v] under [data]
    yields a state with [stale = false], [loading = false] and [data = v];
    every caller-defined field keeps its value. *)
Theorem fulfill_resets_flags_and_stores_payload
    (options : Options) (initialData : value)
    (state rest : gmap string value) (v : value) :
  ∃ next,
    sliceReducer options initialData (Some state)
      {| type := getType (name options) "fulfill";
         payload := VObj (<["data" := v]> rest) |} = Ok next
    ∧ next !! "stale" = Some (VBool false)
    ∧ next !! "loading" = Some (VBool false)
    ∧ next !! "data" = Some v
    ∧ ∀ k, k ≠ "stale" → k ≠ "loading" → k ≠ "data" → next !! k = state !! k.
Proof.
  eexists. split.
  - rewrite sliceReducer_fulfill. unfold fulfill, payload_data, field. cbn.
    rewrite lookup_insert_eq. reflexivity.
  - repeat split; intros; by simplify_map_eq.
Qed.

(** C6: whatever the prior state, [makeStale] sets [stale = true]; with
    [resetOnStale = true] it also sets [data] to the initial value, with
    [resetOnStale] false or unset it leaves [data] as it is; [loading] and the
    caller-defined fields keep their values in both cases. *)
Theorem makeStale_marks_stale_and_resets_by_policy
    (options : Options) (initialData : value)
    (state : gmap string value) (p : value) :
  ∃ next,
    sliceReducer options initialData (Some state)
      {| type := getType (name options) "makeStale"; payload := p |} = Ok next
    ∧ next !! "stale" = Some (VBool true)
    ∧ next !! "data" = match resetOnStale options with
                       | Some true => Some initialData
                       | Some false | None => state !! "data"
                       end
    ∧ next !! "loading" = state !! "loading"
    ∧ ∀ k, k ≠ "stale" → k ≠ "data" → next !! k = state !! k.
Proof.
  rewrite sliceReducer_makeStale. unfold makeStale. cbn.
  destruct (resetOnStale options) as [[]|]; cbn;
    (eexists; split; [reflexivity|]);
    repeat split; intros; by simplify_map_eq.
Qed.

(** C8: whatever the prior state and whatever the policies, [makeLoading]
    sets [loading = true] and nothing else: [stale], [data] and every
    caller-defined field keep their values. *)
Theorem makeLoading_only_sets_loading
    (options : Options) (initialData : value)
    (state : gmap string value) (p : value) :
  ∃ next,
    sliceReducer options initialData (Some state)
      {| type := getType (name options) "makeLoading"; payload := p |} = Ok next
    ∧ next !! "loading" = Some (VBool true)
    ∧ next !! "stale" = state !! "stale"
    ∧ next !! "data" = state !! "data"
    ∧ ∀ k, k ≠ "loading" → next !! k = state !! k.
Proof.
  rewrite sliceReducer_makeLoading. cbn.
  eexists; split; [reflexivity|].
  repeat split; intros; by simplify_map_eq.
Qed.

(** C10: a caller's reducer named [makeStale], [makeLoading] or [fulfill] and
    a caller's initial field named [stale], [loading] or [data] are
    overwritten by the built-in ones: [createSlice] receives the built-in
    reducers under the three names and the initial state [stale = true],
    [loading = false], [data = initialData], and it receives the very same
    argument whether or not the caller supplied a colliding entry. *)
Theorem builtin_entries_override_colliding_ones
    (options : Options) (initialData : value) :
  let o := sliceOptions options initialData in
  (cso_reducers o !! "makeStale" = Some (makeStale options initialData)
   ∧ cso_reducers o !! "makeLoading" = Some makeLoading
   ∧ cso_reducers o !! "fulfill" = Some fulfill)
  ∧ (cso_initialState o !! "stale" = Some (VBool true)
     ∧ cso_initialState o !! "loading" = Some (VBool false)
     ∧ cso_initialState o !! "data" = Some initialData)
  ∧ (∀ r, sliceOptions (withReducer "makeStale" r options) initialData = o)
  ∧ (∀ r, sliceOptions (withReducer "makeLoading" r options) initialData = o)
  ∧ (∀ r, sliceOptions (withReducer "fulfill" r options) initialData = o)
  ∧ (∀ v, sliceOptions (withField "stale" v options) initialData = o)
  ∧ (∀ v, sliceOptions (withField "loading" v options) initialData = o)
  ∧ (∀ v, sliceOptions (withField "data" v options) initialData = o).
Proof.
  cbn zeta. split; [|split].
  - split; [apply builtin_makeStale|split; [apply builtin_makeLoading|apply builtin_fulfill]].
  - cbn. repeat split; by simplify_map_eq.
  - repeat split; intros; unfold sliceOptions, withReducer, withField; cbn;
      f_equal; by rewrite ?insert_absorbed_1, ?insert_absorbed_2, ?insert_absorbed_3.
Qed.

(** ** Sequences of built-in actions *)

(** What the slice reducer makes of each built-in action. *)
Lemma sliceReducer_coreAction (options : Options) (initialData : value)
    (state : gmap string value) (c : CoreAction) :
  sliceReducer options initialData (Some state) (coreAction options initialData c)
  = match c with
    | MakeStale =>
        Ok (if truthy_opt (resetOnStale options)
            then <["data" := initialData]> (<["stale" := VBool true]> state)
            else <["stale" := VBool true]> state)
    | MakeLoading => Ok (<["loading" := VBool true]> state)
    | Fulfill v =>
        Ok (<["data" := v]> (<["loading" := VBool false]> (<["stale" := VBool false]> state)))
    end.
Proof.
  destruct c as [| |v]; unfold coreAction.
  - etrans; [apply sliceReducer_makeStale|].
    unfold makeStale. cbn. by destruct (truthy_opt _).
  - apply sliceReducer_makeLoading.
  - etrans; [apply sliceReducer_fulfill|].
    unfold fulfill, payload_data, field. cbn. by rewrite lookup_insert_eq.
Qed.

Lemma reduceAll_loading (options : Options) (initialData : value)
    (l : list CoreAction) (state : gmap string value) (b : bool) :
  state !! "loading" = Some (VBool b) →
  ∃ final,
    reduceAll (sliceReducer options initialData) state
      (coreAction options initialData <$> l) = Ok final
    ∧ final !! "loading" = Some (VBool (loadingAfter b l)).
Proof.
  revert state b. induction l as [|c l IH]; intros state b Hb.
  - exists state. by split.
  - cbn [fmap list_fmap reduceAll]. rewrite sliceReducer_coreAction.
    destruct c as [| |v]; cbn [rbind]; apply IH.
    + destruct (truthy_opt _); by simplify_map_eq.
    + by simplify_map_eq.
    + by simplify_map_eq.
Qed.

(** [loadingAfter] in the words of the specification: a [makeLoading] with no
    [fulfill] after it. *)
Lemma loadingAfter_false_iff (l : list CoreAction) :
  loadingAfter false l = true
  ↔ ∃ l1 l2, l = l1 ++ MakeLoading :: l2 ∧ ∀ v, Fulfill v ∉ l2.
Proof.
  unfold loadingAfter.
  induction l as [|c l IH] using rev_ind.
  - split; [done|]. intros (l1 & l2 & H & _). by destruct l1.
  - rewrite foldl_app. cbn [foldl]. destruct c as [| |v].
    + rewrite IH. split.
      * intros (l1 & l2 & -> & Hno). exists l1, (l2 ++ [MakeStale]). split.
        { by rewrite <- app_assoc. }
        intros v Hin. apply elem_of_app in Hin as [Hin|Hin]; [by eapply Hno|].
        by apply list_elem_of_singleton in Hin.
      * intros (l1 & l2 & Heq & Hno).
        destruct l2 as [|c l2 _] using rev_ind.
        { apply (app_inj_tail l l1) in Heq as [_ Heq]. done. }
        rewrite app_comm_cons, app_assoc in Heq.
        apply app_inj_tail in Heq as [-> _].
        exists l1, l2. split; [done|].
        intros v Hin. apply (Hno v). apply elem_of_app. by left.
    + split; [|done]. intros _. exists l, []. split; [done|].
      intros v Hin. by apply elem_of_nil in Hin.
    + split; [done|]. intros (l1 & l2 & Heq & Hno).
      destruct l2 as [|c l2 _] using rev_ind.
      { apply (app_inj_tail l l1) in Heq as [_ Heq]. done. }
      rewrite app_comm_cons, app_assoc in Heq.
      apply app_inj_tail in Heq as [_ <-].
      exfalso. apply (Hno v). apply elem_of_app. right. by apply list_elem_of_singleton.
Qed.

(** C4: after any finite sequence of [makeStale], [makeLoading] and [fulfill]
    actions applied to the initial state, [loading] is a boolean, and it is
    [true] exactly when the sequence has a [makeLoading] with no [fulfill]
    after it. *)
Theorem loading_iff_makeLoading_since_last_fulfill
    (options : Options) (initialData : value) (l : list CoreAction) :
  ∃ final b,
    reduceAll (sliceReducer options initialData)
      (cso_initialState (sliceOptions options initialData))
      (coreAction options initialData <$> l) = Ok final
    ∧ final !! "loading" = Some (VBool b)
    ∧ (b = true ↔ ∃ l1 l2, l = l1 ++ MakeLoading :: l2 ∧ ∀ v, Fulfill v ∉ l2).
Proof.
  destruct (reduceAll_loading options initialData l
              (cso_initialState (sliceOptions options initialData)) false)
    as (final & Hrun & Hloading).
  { cbn. by simplify_map_eq. }
  exists final, (loadingAfter false l). split; [done|]. split; [done|].
  apply loadingAfter_false_iff.
Qed.

(** ** The derived view *)

(** C5: on a root state that holds the slice, [selectData] returns the
    initial value when [slice.stale] and [resetOnStale] hold; otherwise the
    initial value when [slice.loading] and [resetOnLoading] hold; otherwise
    [slice.data].  When both pairs hold the stale branch is the one taken,
    and the result is the initial value. *)
Theorem selectData_follows_reset_policies
    (options : Options) (initialData : value)
    (root : gmap string (gmap string value)) (slice : gmap string value) :
  root !! name options = Some slice →
  let staleReset :=
    truthy (field slice "stale") = true ∧ resetOnStale options = Some true in
  let loadingReset :=
    truthy (field slice "loading") = true ∧ resetOnLoading options = Some true in
  (staleReset → selectData options initialData root = Ok initialData)
  ∧ (¬ staleReset → loadingReset → selectData options initialData root = Ok initialData)
  ∧ (¬ staleReset → ¬ loadingReset →
       selectData options initialData root = Ok (field slice "data"))
  ∧ (staleReset → loadingReset → selectData options initialData root = Ok initialData).
Proof.
  intros Hslice staleReset loadingReset.
  assert (Hsel : selectData options initialData root
            = Ok (if truthy (field slice "stale") && truthy_opt (resetOnStale options)
                  then initialData
                  else if truthy (field slice "loading")
                          && truthy_opt (resetOnLoading options)
                       then initialData
                       else field slice "data")).
  { unfold selectData, createSelector3, selectStale, selectLoading, selectSlice,
      createSelector. cbn. rewrite Hslice. cbn.
    by repeat destruct (_ && _). }
  rewrite Hsel. subst staleReset loadingReset.
  destruct (truthy (field slice "stale")), (resetOnStale options) as [[]|],
    (truthy (field slice "loading")), (resetOnLoading options) as [[]|];
    cbn; intuition congruence.
Qed.

(** ** The reconciliation engine *)

Section ReconciliationFacts.

Variable options : Options.
Variable initialData : value.
Variable deepEqual : value → value → bool.
Variable loaderParamsSelector : option (gmap string (gmap string value) → result value).
Variable otherReducers : gmap string (gmap string value) → action → gmap string (gmap string value).

#[local] Abbreviation begin :=
  (load_begin options initialData deepEqual loaderParamsSelector otherReducers).
#[local] Abbreviation resume := (load_resume options initialData deepEqual otherReducers).
#[local] Abbreviation send := (dispatch options initialData otherReducers).
#[local] Abbreviation loadingAction := (makeLoadingAction options initialData).
#[local] Abbreviation fulfilled := (fulfillAction options initialData).

Lemma sliceReducer_fulfillAction (state : option (gmap string value)) (data : value) :
  sliceReducer options initialData state (fulfilled data)
  = Ok (<["data" := data]>
          (<["loading" := VBool false]>
            (<["stale" := VBool false]>
              (default (cso_initialState (sliceOptions options initialData)) state)))).
Proof.
  etrans; [apply sliceReducer_fulfill|].
  unfold fulfill, payload_data, field. cbn. by rewrite lookup_insert_eq.
Qed.

Lemma storeReducer_makeLoading (root : gmap string (gmap string value)) :
  storeReducer options initialData otherReducers root loadingAction
  = Ok (<[name options :=
            <["loading" := VBool true]>
              (default (cso_initialState (sliceOptions options initialData))
                 (root !! name options))]>
          (otherReducers root loadingAction)).
Proof.
  unfold storeReducer.
  by rewrite (sliceReducer_makeLoading options initialData (root !! name options) VNull).
Qed.

Lemma storeReducer_fulfill (root : gmap string (gmap string value)) (data : value) :
  storeReducer options initialData otherReducers root (fulfilled data)
  = Ok (<[name options :=
            <["data" := data]>
              (<["loading" := VBool false]>
                (<["stale" := VBool false]>
                  (default (cso_initialState (sliceOptions options initialData))
                     (root !! name options))))]>
          (otherReducers root (fulfilled data))).
Proof.
  unfold storeReducer. by rewrite sliceReducer_fulfillAction.
Qed.

(** The world the synchronous part of a run that goes ahead leaves. *)
Lemma load_begin_eq (w : World) (slice : gmap string value) (params : value) :
  store_state w !! name options = Some slice →
  loaderParams loaderParamsSelector (store_state w) = Ok params →
  begin w =
    if needsLoad deepEqual (field slice "stale") (field slice "loading")
         (previousParams w) params
    then ({| store_state :=
               <[name options := <["loading" := VBool true]> slice]>
                 (otherReducers (store_state w) loadingAction);
             previousParams := params;
             trace := trace w ++ [Dispatched loadingAction; LoaderCalled params] |},
          Ok (Awaiting params))
    else (w, Ok Returned).
Proof.
  intros Hslice Hparams.
  unfold load_begin, bind, getState, lift, readPreviousParams,
    selectLoading, selectStale, selectSlice, createSelector.
  cbn. rewrite Hslice. cbn. rewrite Hparams.
  destruct (needsLoad _ _ _ _ _); [|done].
  unfold writePreviousParams, dispatch, callLoader.
  cbn -[storeReducer makeLoadingAction].
  rewrite storeReducer_makeLoading, Hslice.
  cbn -[makeLoadingAction]. by rewrite <- app_assoc.
Qed.

(** A run that reached its [await] went ahead from a world holding the slice. *)
Lemma load_begin_awaiting (w w' : World) (params : value) :
  begin w = (w', Ok (Awaiting params)) →
  ∃ slice,
    store_state w !! name options = Some slice
    ∧ loaderParams loaderParamsSelector (store_state w) = Ok params
    ∧ needsLoad deepEqual (field slice "stale") (field slice "loading")
        (previousParams w) params = true
    ∧ previousParams w' = params
    ∧ store_state w' !! name options = Some (<["loading" := VBool true]> slice).
Proof.
  intros Hrun.
  destruct (store_state w !! name options) as [slice|] eqn:Hslice; last first.
  { unfold load_begin, bind, getState, lift, selectLoading, selectSlice,
      createSelector in Hrun. cbn in Hrun. rewrite Hslice in Hrun. done. }
  destruct (loaderParams loaderParamsSelector (store_state w)) as [p|e] eqn:Hparams;
    last first.
  { unfold load_begin, bind, getState, lift, selectLoading, selectStale,
      selectSlice, createSelector in Hrun.
    cbn in Hrun. rewrite Hslice in Hrun. cbn in Hrun. rewrite Hparams in Hrun. done. }
  rewrite (load_begin_eq w slice p Hslice Hparams) in Hrun.
  destruct (needsLoad _ _ _ _ _) eqn:Hneeds; [|done].
  injection Hrun as <- <-. exists slice. cbn.
  repeat split; try done. by rewrite lookup_insert_eq.
Qed.

(** What the store holds after [fulfill({ data })] went through it. *)
Lemma dispatch_fulfill (w : World) (data : value) :
  send (fulfilled data) w =
    ({| store_state :=
          <[name options :=
              <["data" := data]>
                (<["loading" := VBool false]>
                  (<["stale" := VBool false]>
                    (default (cso_initialState (sliceOptions options initialData))
                       (store_state w !! name options))))]>
            (otherReducers (store_state w) (fulfilled data));
        previousParams := previousParams w;
        trace := trace w ++ [Dispatched (fulfilled data)] |}, Ok tt).
Proof.
  unfold dispatch. cbn -[storeReducer fulfillAction].
  by rewrite storeReducer_fulfill.
Qed.

(** The recheck after the [await]. *)
Lemma load_resume_resolved (w : World) (params data : value) :
  resume params (Resolved data) w =
    if deepEqual (previousParams w) params
    then send (fulfilled data) w
    else (w, Ok tt).
Proof.
  unfold load_resume, bind, readPreviousParams. cbn.
  by destruct (deepEqual _ _).
Qed.

Lemma needsLoad_true_iff (stale loading previous params : value) :
  needsLoad deepEqual stale loading previous params = true
  ↔ (truthy stale = true ∧ truthy loading = false)
    ∨ deepEqual previous params = false.
Proof.
  unfold needsLoad.
  destruct (truthy stale), (truthy loading), (deepEqual previous params);
    cbn; intuition congruence.
Qed.

(** What the store holds after [makeStale] went through it. *)
Lemma dispatch_makeStale (w : World) :
  send (makeStaleAction options initialData) w =
    ({| store_state :=
          <[name options :=
              (let state :=
                 <["stale" := VBool true]>
                   (default (cso_initialState (sliceOptions options initialData))
                      (store_state w !! name options)) in
               if truthy_opt (resetOnStale options)
               then <["data" := initialData]> state else state)]>
            (otherReducers (store_state w) (makeStaleAction options initialData));
        previousParams := previousParams w;
        trace := trace w ++ [Dispatched (makeStaleAction options initialData)] |}, Ok tt).
Proof.
  unfold dispatch. cbn -[storeReducer makeStaleAction].
  unfold storeReducer.
  rewrite (sliceReducer_makeStale options initialData
             (store_state w !! name options) VNull : sliceReducer _ _ _ (makeStaleAction _ _) = _).
  unfold makeStale. cbn -[makeStaleAction].
  by destruct (truthy_opt _).
Qed.

(** C2: an invocation of the thunk reads the slice and the loader parameters;
    it writes [previousParams], dispatches [makeLoading] and calls the loader
    exactly when ([stale] and not [loading]) or the parameters are not
    deep-equal to [previousParams]; otherwise it dispatches nothing, calls
    nothing and leaves the world as it is.  In particular, after a
    [makeStale] on a slice that is loading, with parameters still deep-equal
    to [previousParams], the thunk does nothing. *)
Theorem load_goes_ahead_iff_stale_and_idle_or_params_changed
    (w : World) (slice : gmap string value) (params : value) :
  store_state w !! name options = Some slice →
  loaderParams loaderParamsSelector (store_state w) = Ok params →
  let needed :=
    (truthy (field slice "stale") = true ∧ truthy (field slice "loading") = false)
    ∨ deepEqual (previousParams w) params = false in
  (needed →
     ∃ w', begin w = (w', Ok (Awaiting params))
       ∧ trace w' = trace w ++ [Dispatched loadingAction; LoaderCalled params]
       ∧ previousParams w' = params
       ∧ store_state w' !! name options = Some (<["loading" := VBool true]> slice))
  ∧ (¬ needed → begin w = (w, Ok Returned))
  ∧ (truthy (field slice "loading") = true →
     ∃ w1 slice1,
       send (makeStaleAction options initialData) w = (w1, Ok tt)
       ∧ store_state w1 !! name options = Some slice1
       ∧ slice1 !! "stale" = Some (VBool true)
       ∧ previousParams w1 = previousParams w
       ∧ ∀ params1,
           loaderParams loaderParamsSelector (store_state w1) = Ok params1 →
           deepEqual (previousParams w1) params1 = true →
           begin w1 = (w1, Ok Returned)).
Proof.
  intros Hslice Hparams needed. split; [|split].
  - intros Hneeded. apply needsLoad_true_iff in Hneeded.
    rewrite (load_begin_eq w slice params Hslice Hparams), Hneeded.
    eexists. split; [reflexivity|]. cbn -[makeLoadingAction].
    repeat split. by rewrite lookup_insert_eq.
  - intros Hneeded.
    rewrite (load_begin_eq w slice params Hslice Hparams).
    destruct (needsLoad _ _ _ _ _) eqn:E; [|done].
    by apply needsLoad_true_iff in E.
  - intros Hloading. rewrite dispatch_makeStale, Hslice.
    cbn [default].
    set (slice1 := if truthy_opt (resetOnStale options)
                   then <["data" := initialData]> (<["stale" := VBool true]> slice)
                   else <["stale" := VBool true]> slice).
    assert (Hl : field slice1 "loading" = field slice "loading").
    { subst slice1. unfold field. destruct (truthy_opt _); by simplify_map_eq. }
    eexists _, slice1. split; [reflexivity|].
    cbn [store_state previousParams].
    split; [by rewrite lookup_insert_eq|].
    split; [subst slice1; destruct (truthy_opt _); by simplify_map_eq|].
    split; [done|].
    intros params1 Hparams1 Hequal.
    rewrite (load_begin_eq _ slice1 params1);
      [|by cbn [store_state]; rewrite lookup_insert_eq|done].
    cbn [previousParams]. unfold needsLoad.
    by rewrite Hl, Hloading, Hequal, andb_false_r.
Qed.

(** C9: while a load is in flight ([loading = true]), parameters that are not
    deep-equal to [previousParams] still start a load at once: the thunk
    writes [previousParams], dispatches [makeLoading] and calls the loader,
    and the effect of [useMonitoredData] that selected these values runs the
    thunk. *)
Theorem params_change_starts_load_while_loading
    (w : World) (slice : gmap string value) (params : value) :
  store_state w !! name options = Some slice →
  loaderParams loaderParamsSelector (store_state w) = Ok params →
  truthy (field slice "loading") = true →
  deepEqual (previousParams w) params = false →
  ∃ w',
    begin w = (w', Ok (Awaiting params))
    ∧ previousParams w' = params
    ∧ trace w' = trace w ++ [Dispatched loadingAction; LoaderCalled params]
    ∧ store_state w' !! name options = Some (<["loading" := VBool true]> slice)
    ∧ useMonitoredData_effect options initialData deepEqual loaderParamsSelector
        otherReducers (field slice "stale") (field slice "loading") params w
      = (w', Ok (Awaiting params)).
Proof.
  intros Hslice Hparams Hloading Hchanged.
  assert (Hneeds : needsLoad deepEqual (field slice "stale") (field slice "loading")
                     (previousParams w) params = true).
  { apply needsLoad_true_iff. by right. }
  eexists. split; [|split; [|split; [|split]]]; last first.
  - unfold useMonitoredData_effect, bind, readPreviousParams.
    cbn -[load_begin]. rewrite Hneeds.
    by rewrite (load_begin_eq w slice params Hslice Hparams), Hneeds.
  - cbn -[makeLoadingAction]. by rewrite lookup_insert_eq.
  - done.
  - done.
  - by rewrite (load_begin_eq w slice params Hslice Hparams), Hneeds.
Qed.

(** C7: when the loader's promise rejects, the thunk rethrows the reason and
    dispatches nothing: nothing in it catches the rejection.  A run that went
    ahead therefore ends with the reason thrown, with [makeLoading] its only
    dispatch, and with the slice as it was except for [loading = true]:
    [stale], [data] and every other field are as before, and no field
    records the failure. *)
Theorem loader_rejection_propagates_and_leaves_loading
    (w : World) (slice : gmap string value) (params reason : value) :
  store_state w !! name options = Some slice →
  loaderParams loaderParamsSelector (store_state w) = Ok params →
  (truthy (field slice "stale") = true ∧ truthy (field slice "loading") = false)
  ∨ deepEqual (previousParams w) params = false →
  (∀ w2 p, resume p (Rejected reason) w2 = (w2, Throw (Thrown reason)))
  ∧ ∃ w' slice',
      load options initialData deepEqual loaderParamsSelector otherReducers
        (Rejected reason) w = (w', Throw (Thrown reason))
      ∧ trace w' = trace w ++ [Dispatched loadingAction; LoaderCalled params]
      ∧ store_state w' !! name options = Some slice'
      ∧ slice' !! "loading" = Some (VBool true)
      ∧ slice' !! "stale" = slice !! "stale"
      ∧ slice' !! "data" = slice !! "data"
      ∧ ∀ k, k ≠ "loading" → slice' !! k = slice !! k.
Proof.
  intros Hslice Hparams Hneeded. split; [done|].
  apply needsLoad_true_iff in Hneeded.
  unfold load, bind.
  rewrite (load_begin_eq w slice params Hslice Hparams), Hneeded.
  cbn -[makeLoadingAction].
  eexists _, _. split; [reflexivity|]. cbn -[makeLoadingAction].
  split; [done|]. split; [by rewrite lookup_insert_eq|].
  repeat split; intros; by simplify_map_eq.
Qed.

(** C1: two runs overlap: the first went ahead with the snapshot [P1]; before
    its loader resolves, with the slice and [previousParams] as it left them,
    a second run goes ahead with the snapshot [P2].  Then [previousParams] is
    [P2], the two snapshots are not deep-equal, and whenever the result for
    [P1] arrives the recheck fails: nothing is dispatched and the world stays
    as it is.  The result for [P2] is fulfilled, so whichever loader
    resolves first the only dispatch is [fulfill] with the result for [P2]
    and the slice ends with [data] equal to it. *)
Theorem superseded_result_is_never_fulfilled
    (w0 w1 w1' w2 : World) (P1 P2 r1 r2 : value) :
  begin w0 = (w1, Ok (Awaiting P1)) →
  previousParams w1' = previousParams w1 →
  store_state w1' !! name options = store_state w1 !! name options →
  begin w1' = (w2, Ok (Awaiting P2)) →
  deepEqual P2 P1 = deepEqual P1 P2 →
  deepEqual P2 P2 = true →
  previousParams w2 = P2
  ∧ deepEqual P2 P1 = false
  ∧ (∀ w, previousParams w = P2 → resume P1 (Resolved r1) w = (w, Ok tt))
  ∧ ∃ w3 slice3,
      resume P2 (Resolved r2) w2 = (w3, Ok tt)
      ∧ trace w3 = trace w2 ++ [Dispatched (fulfilled r2)]
      ∧ store_state w3 !! name options = Some slice3
      ∧ slice3 !! "data" = Some r2
      ∧ slice3 !! "stale" = Some (VBool false)
      ∧ slice3 !! "loading" = Some (VBool false)
      ∧ settle_all options initialData deepEqual otherReducers
          [(P1, Resolved r1); (P2, Resolved r2)] w2 = w3
      ∧ settle_all options initialData deepEqual otherReducers
          [(P2, Resolved r2); (P1, Resolved r1)] w2 = w3.
Proof.
  intros Hrun1 Hprev Hsame Hrun2 Hsym Hrefl.
  apply load_begin_awaiting in Hrun1 as (slice0 & _ & _ & _ & Hprev1 & Hslice1).
  apply load_begin_awaiting in Hrun2 as (slice1 & Hslice1' & _ & Hneeds & Hprev2 & _).
  rewrite Hsame, Hslice1 in Hslice1'. injection Hslice1' as <-.
  rewrite Hprev, Hprev1 in Hneeds.
  assert (Hdiff : deepEqual P2 P1 = false).
  { rewrite Hsym. apply needsLoad_true_iff in Hneeds as [[_ Hidle]|Hdiff]; [|done].
    unfold field in Hidle. by rewrite lookup_insert_eq in Hidle. }
  assert (Hdrop : ∀ w, previousParams w = P2 → resume P1 (Resolved r1) w = (w, Ok tt)).
  { intros w Hw. by rewrite load_resume_resolved, Hw, Hdiff. }
  split; [done|]. split; [done|]. split; [done|].
  assert (Hkeep : resume P2 (Resolved r2) w2 = send (fulfilled r2) w2).
  { by rewrite load_resume_resolved, Hprev2, Hrefl. }
  rewrite Hkeep, dispatch_fulfill.
  eexists _, _. split; [reflexivity|].
  cbn [store_state previousParams trace].
  split; [done|]. split; [by rewrite lookup_insert_eq|].
  split; [by simplify_map_eq|]. split; [by simplify_map_eq|]. split; [by simplify_map_eq|].
  split.
  - cbn [settle_all]. rewrite (Hdrop w2 Hprev2). cbn [fst].
    by rewrite Hkeep, dispatch_fulfill.
  - cbn [settle_all]. rewrite Hkeep, dispatch_fulfill. cbn [fst].
    by rewrite Hdrop.
Qed.

End ReconciliationFacts.

(** ** The theorems at work on the widgets story *)

Module WidgetsRuns.

Import Widgets.

(** The store initialises the slice as stale, not loading, with the initial
    data and the caller's extra field. *)
Example initial_state_widgets :
  sliceReducer options initialData None {| type := "@@redux/INIT"; payload := VUndefined |}
  = Ok (<["selected" := VNull]>
          (<["stale" := VBool true]>
            (<["loading" := VBool false]> (<["data" := VArr []]> ∅)))).
Proof. vm_compute. reflexivity. Qed.

(** The caller's own reducer is reached under its own name. *)
Example selectWidget_widgets :
  sliceReducer options initialData (Some loadingSlice)
    {| type := "widgetsSlice/selectWidget"; payload := VStr "1-1" |}
  = Ok (<["selected" := VStr "1-1"]> loadingSlice).
Proof. vm_compute. reflexivity. Qed.

(** A first observation loads the widgets of the selected factory. *)
Example load_resolved_widgets :
  (load options initialData deepEqual (Some selectedFactory) otherReducers
     (Resolved (widgets 1)) world1).1
  = {| store_state :=
         <["widgetsSlice" :=
             <["data" := widgets 1]>
               (<["loading" := VBool false]>
                 (<["stale" := VBool false]> (<["selected" := VNull]> ∅)))]> root1;
       previousParams := VNum 1;
       trace := [Dispatched (makeLoadingAction options initialData);
                 LoaderCalled (VNum 1);
                 Dispatched (fulfillAction options initialData (widgets 1))] |}.
Proof. vm_compute. reflexivity. Qed.

Lemma selectData_resets_while_loading_widgets :
  selectData options initialData (<["widgetsSlice" := loadingSlice]> root1) = Ok initialData.
Proof.
  refine (proj1 (proj2 (selectData_follows_reset_policies options initialData
                          (<["widgetsSlice" := loadingSlice]> root1) loadingSlice _)) _ _).
  - vm_compute. reflexivity.
  - vm_compute. intros [_ H]. discriminate H.
  - vm_compute. split; reflexivity.
Defined.

Lemma first_load_goes_ahead_widgets :
  ∃ w', load_begin options initialData deepEqual (Some selectedFactory) otherReducers world1
        = (w', Ok (Awaiting (VNum 1)))
        ∧ previousParams w' = VNum 1.
Proof.
  destruct (load_goes_ahead_iff_stale_and_idle_or_params_changed
              options initialData deepEqual (Some selectedFactory) otherReducers
              world1 (cso_initialState (sliceOptions options initialData)) (VNum 1))
    as [Hgo _].
  - vm_compute. reflexivity.
  - vm_compute. reflexivity.
  - destruct Hgo as (w' & Hrun & _ & Hprev & _).
    + left. vm_compute. split; reflexivity.
    + exists w'. split; [exact Hrun | exact Hprev].
Defined.

Lemma factory_change_starts_load_while_loading_widgets :
  ∃ w', load_begin options initialData deepEqual (Some selectedFactory) otherReducers world3
        = (w', Ok (Awaiting (VNum 2)))
        ∧ previousParams w' = VNum 2.
Proof.
  destruct (params_change_starts_load_while_loading
              options initialData deepEqual (Some selectedFactory) otherReducers
              world3 loadingSlice (VNum 2))
    as (w' & Hrun & Hprev & _).
  - vm_compute. reflexivity.
  - vm_compute. reflexivity.
  - vm_compute. reflexivity.
  - vm_compute. reflexivity.
  - exists w'. split; [exact Hrun | exact Hprev].
Defined.

Lemma rejected_load_leaves_loading_widgets :
  ∃ w' slice',
    load options initialData deepEqual (Some selectedFactory) otherReducers
      (Rejected (VStr "offline")) world1 = (w', Throw (Thrown (VStr "offline")))
    ∧ store_state w' !! "widgetsSlice" = Some slice'
    ∧ slice' !! "loading" = Some (VBool true)
    ∧ slice' !! "data" = Some initialData.
Proof.
  destruct (loader_rejection_propagates_and_leaves_loading
              options initialData deepEqual (Some selectedFactory) otherReducers
              world1 (cso_initialState (sliceOptions options initialData))
              (VNum 1) (VStr "offline"))
    as (_ & w' & slice' & Hrun & _ & Hslice & Hloading & _ & Hdata & _).
  - vm_compute. reflexivity.
  - vm_compute. reflexivity.
  - left. vm_compute. split; reflexivity.
  - exists w', slice'. repeat split; [exact Hrun | exact Hslice | exact Hloading |].
    rewrite Hdata. vm_compute. reflexivity.
Defined.

Lemma widgets_of_factory_2_win_in_both_orders :
  ∃ w slice,
    settle_all options initialData deepEqual otherReducers
      [(VNum 1, Resolved (widgets 1)); (VNum 2, Resolved (widgets 2))] world4 = w
    ∧ settle_all options initialData deepEqual otherReducers
        [(VNum 2, Resolved (widgets 2)); (VNum 1, Resolved (widgets 1))] world4 = w
    ∧ store_state w !! "widgetsSlice" = Some slice
    ∧ slice !! "data" = Some (widgets 2).
Proof.
  destruct (superseded_result_is_never_fulfilled
              options initialData deepEqual (Some selectedFactory) otherReducers
              world1 world2 world3 world4 (VNum 1) (VNum 2) (widgets 1) (widgets 2))
    as (_ & _ & _ & w & slice & _ & _ & Hslice & Hdata & _ & _ & Hfirst & Hsecond).
  - vm_compute. reflexivity.
  - vm_compute. reflexivity.
  - vm_compute. reflexivity.
  - vm_compute. reflexivity.
  - vm_compute. reflexivity.
  - vm_compute. reflexivity.
  - exists w, slice. repeat split; assumption.
Defined.

End WidgetsRuns.

(** * Further properties of the slice and its selectors *)

Section SliceExtras.

Variable options : Options.
Variable initialData : value.

(** The selectors on a root state that holds the slice. *)
Lemma selectors_on_slice (root : gmap string (gmap string value)) (slice : gmap string value) :
  root !! name options = Some slice →
  selectSlice options root = Ok (Some slice)
  ∧ selectStale options root = Ok (field slice "stale")
  ∧ selectLoading options root = Ok (field slice "loading")
  ∧ selectData options initialData root
    = Ok (if truthy (field slice "stale") && truthy_opt (resetOnStale options)
          then initialData
          else if truthy (field slice "loading") && truthy_opt (resetOnLoading options)
               then initialData
               else field slice "data").
Proof.
  intros Hslice.
  unfold selectData, createSelector3, selectStale, selectLoading, selectSlice,
    createSelector. cbn. rewrite Hslice. cbn.
  repeat split. by repeat destruct (_ && _).
Qed.

Lemma selectData_on_inserted (root : gmap string (gmap string value)) (slice : gmap string value) :
  selectData options initialData (<[name options := slice]> root)
  = Ok (if truthy (field slice "stale") && truthy_opt (resetOnStale options)
        then initialData
        else if truthy (field slice "loading") && truthy_opt (resetOnLoading options)
             then initialData
             else field slice "data").
Proof. apply selectors_on_slice, lookup_insert_eq. Qed.

Lemma sliceReducer_makeStale_eq (state : option (gmap string value)) (p : value) :
  sliceReducer options initialData state
    {| type := getType (name options) "makeStale"; payload := p |}
  = Ok (if truthy_opt (resetOnStale options)
        then <["data" := initialData]>
               (<["stale" := VBool true]>
                  (default (cso_initialState (sliceOptions options initialData)) state))
        else <["stale" := VBool true]>
               (default (cso_initialState (sliceOptions options initialData)) state)).
Proof.
  rewrite sliceReducer_makeStale. unfold makeStale. by destruct (truthy_opt _).
Qed.

Lemma sliceReducer_fulfill_data (state : option (gmap string value))
    (rest : gmap string value) (v : value) :
  sliceReducer options initialData state
    {| type := getType (name options) "fulfill"; payload := VObj (<["data" := v]> rest) |}
  = Ok (<["data" := v]>
          (<["loading" := VBool false]>
            (<["stale" := VBool false]>
              (default (cso_initialState (sliceOptions options initialData)) state)))).
Proof.
  rewrite sliceReducer_fulfill. unfold fulfill, payload_data, field. cbn.
  by rewrite lookup_insert_eq.
Qed.

(** X1: [makeStale] is idempotent: a second [makeStale] leaves the state the
    first one produced, under either policy. *)
Theorem makeStale_idempotent (state : gmap string value) (p q : value) :
  ∃ next,
    sliceReducer options initialData (Some state)
      {| type := getType (name options) "makeStale"; payload := p |} = Ok next
    ∧ sliceReducer options initialData (Some next)
        {| type := getType (name options) "makeStale"; payload := q |} = Ok next.
Proof.
  eexists; split; [apply sliceReducer_makeStale_eq|].
  rewrite sliceReducer_makeStale_eq. cbn [default from_option id].
  destruct (truthy_opt (resetOnStale options)); f_equal.
  - apply map_eq; intros i.
    destruct (decide (i = "data")) as [->|?]; [by simplify_map_eq|].
    destruct (decide (i = "stale")) as [->|?]; by simplify_map_eq.
  - by rewrite insert_insert_eq.
Qed.

(** X2: once a [fulfill] carrying [v] went through the reducer, the selectors
    report not stale, not loading and [v] as the data, whatever the two reset
    policies and whatever the state before. *)
Theorem selectors_after_fulfill
    (root : gmap string (gmap string value)) (state : option (gmap string value))
    (rest : gmap string value) (v : value) :
  ∃ next,
    sliceReducer options initialData state
      {| type := getType (name options) "fulfill";
         payload := VObj (<["data" := v]> rest) |} = Ok next
    ∧ selectStale options (<[name options := next]> root) = Ok (VBool false)
    ∧ selectLoading options (<[name options := next]> root) = Ok (VBool false)
    ∧ selectData options initialData (<[name options := next]> root) = Ok v.
Proof.
  eexists; split; [apply sliceReducer_fulfill_data|].
  match goal with |- context [<[name options := ?n]> root] => set (next := n) end.
  destruct (selectors_on_slice (<[name options := next]> root) next)
    as (_ & -> & -> & ->); [apply lookup_insert_eq|].
  subst next. unfold field. by simplify_map_eq.
Qed.

(** X3: with [resetOnLoading], [makeLoading] hides the data without touching
    it: the stored [data] is what it was and [selectData] returns the initial
    value. *)
Theorem makeLoading_masks_data_without_storing
    (root : gmap string (gmap string value)) (state : gmap string value) (p : value) :
  resetOnLoading options = Some true →
  ∃ next,
    sliceReducer options initialData (Some state)
      {| type := getType (name options) "makeLoading"; payload := p |} = Ok next
    ∧ next !! "data" = state !! "data"
    ∧ selectData options initialData (<[name options := next]> root) = Ok initialData.
Proof.
  intros Hpolicy.
  eexists; split; [apply sliceReducer_makeLoading|]. cbn [default from_option id].
  split; [by simplify_map_eq|].
  rewrite selectData_on_inserted, Hpolicy. unfold field at 2.
  rewrite lookup_insert_eq. cbn. by destruct (_ && _).
Qed.

(** X4: with [resetOnStale], [makeStale] stores the initial value: the stored
    [data] and what [selectData] returns are both the initial value. *)
Theorem makeStale_stores_and_selects_initial
    (root : gmap string (gmap string value)) (state : gmap string value) (p : value) :
  resetOnStale options = Some true →
  ∃ next,
    sliceReducer options initialData (Some state)
      {| type := getType (name options) "makeStale"; payload := p |} = Ok next
    ∧ next !! "data" = Some initialData
    ∧ selectData options initialData (<[name options := next]> root) = Ok initialData.
Proof.
  intros Hpolicy.
  eexists; split; [apply sliceReducer_makeStale_eq|]. rewrite Hpolicy. cbn [default from_option id truthy_opt].
  split; [by simplify_map_eq|].
  rewrite selectData_on_inserted, Hpolicy. unfold field at 1.
  by simplify_map_eq.
Qed.

(** X5: a [fulfill] whose payload is [null] or [undefined] throws a
    [TypeError] in the reducer; a payload object without [data] is accepted
    and stores [undefined] as the data, with both flags cleared. *)
Theorem fulfill_on_malformed_payload (state : option (gmap string value)) :
  sliceReducer options initialData state
    {| type := getType (name options) "fulfill"; payload := VNull |} = Throw TypeError
  ∧ sliceReducer options initialData state
      {| type := getType (name options) "fulfill"; payload := VUndefined |} = Throw TypeError
  ∧ ∀ rest : gmap string value,
      rest !! "data" = None →
      ∃ next,
        sliceReducer options initialData state
          {| type := getType (name options) "fulfill"; payload := VObj rest |} = Ok next
        ∧ next !! "data" = Some VUndefined
        ∧ next !! "stale" = Some (VBool false)
        ∧ next !! "loading" = Some (VBool false).
Proof.
  rewrite !sliceReducer_fulfill. split; [done|]. split; [done|].
  intros rest Hrest. rewrite sliceReducer_fulfill.
  unfold fulfill, payload_data, field. cbn. rewrite Hrest. cbn.
  eexists; split; [reflexivity|]. repeat split; by simplify_map_eq.
Qed.


Lemma selectStale_missing (root : gmap string (gmap string value)) :
  root !! name options = None → selectStale options root = Throw TypeError.
Proof.
  intros Hnone. unfold selectStale, selectSlice, createSelector. cbn. by rewrite Hnone.
Qed.


(** Along the built-in actions, a stale slice under [resetOnStale] holds the
    initial value. *)
Lemma reduceAll_stale_holds_initial (l : list CoreAction) (state : gmap string value) (b : bool) :
  state !! "stale" = Some (VBool b) →
  (b = true → truthy_opt (resetOnStale options) = true →
     state !! "data" = Some initialData) →
  ∃ final b',
    reduceAll (sliceReducer options initialData) state
      (coreAction options initialData <$> l) = Ok final
    ∧ final !! "stale" = Some (VBool b')
    ∧ (b' = true → truthy_opt (resetOnStale options) = true →
         final !! "data" = Some initialData).
Proof.
  revert state b. induction l as [|c l IH]; intros state b Hb Hinv.
  - exists state, b. by repeat split.
  - cbn [fmap list_fmap reduceAll]. rewrite sliceReducer_coreAction.
    destruct c as [| |v]; cbn [rbind].
    + apply (IH _ true).
      * destruct (truthy_opt _); by simplify_map_eq.
      * intros _ ->. by simplify_map_eq.
    + apply (IH _ b); [by simplify_map_eq|].
      intros ? ?. rewrite lookup_insert_ne by done. by apply Hinv.
    + apply (IH _ false); [by simplify_map_eq|done].
Qed.

(** X8: on every state the built-in actions lead to from the initial state,
    the stale test of [selectData] is redundant: the selector returns the
    initial value when [loading] and [resetOnLoading] hold and the stored
    data otherwise. *)
Theorem selectData_on_reachable_states
    (root : gmap string (gmap string value)) (l : list CoreAction) :
  ∃ final,
    reduceAll (sliceReducer options initialData)
      (cso_initialState (sliceOptions options initialData))
      (coreAction options initialData <$> l) = Ok final
    ∧ selectData options initialData (<[name options := final]> root)
      = Ok (if truthy (field final "loading") && truthy_opt (resetOnLoading options)
            then initialData else field final "data").
Proof.
  destruct (reduceAll_stale_holds_initial l
              (cso_initialState (sliceOptions options initialData)) true)
    as (final & b & Hrun & Hstale & Hinv).
  { cbn. by simplify_map_eq. }
  { intros _ _. cbn. by simplify_map_eq. }
  exists final. split; [done|].
  rewrite selectData_on_inserted. unfold field at 1. rewrite Hstale. cbn.
  destruct b, (truthy_opt (resetOnStale options)) eqn:E; cbn; try done.
  unfold field at 2. rewrite Hinv by done. cbn. by destruct (_ && _).
Qed.

End SliceExtras.

(** * Further properties of the reconciliation engine and the hook *)

Section ReconciliationExtras.

Variable options : Options.
Variable initialData : value.
Variable deepEqual : value → value → bool.
Variable loaderParamsSelector : option (gmap string (gmap string value) → result value).
Variable otherReducers : gmap string (gmap string value) → action → gmap string (gmap string value).

#[local] Abbreviation begin :=
  (load_begin options initialData deepEqual loaderParamsSelector otherReducers).
#[local] Abbreviation resume := (load_resume options initialData deepEqual otherReducers).
#[local] Abbreviation run :=
  (load options initialData deepEqual loaderParamsSelector otherReducers).
#[local] Abbreviation send := (dispatch options initialData otherReducers).
#[local] Abbreviation loadingAction := (makeLoadingAction options initialData).
#[local] Abbreviation staleAction := (makeStaleAction options initialData).
#[local] Abbreviation fulfilled := (fulfillAction options initialData).
#[local] Abbreviation render :=
  (useMonitoredData options initialData deepEqual loaderParamsSelector otherReducers).
#[local] Abbreviation begin_eq :=
  (load_begin_eq options initialData deepEqual loaderParamsSelector otherReducers).

(** The thunk on a store without the slice, and with a parameter selector
    that throws. *)
Lemma load_begin_missing (w : World) :
  store_state w !! name options = None → begin w = (w, Throw TypeError).
Proof.
  intros Hnone.
  unfold load_begin, bind, getState, lift, selectLoading, selectSlice, createSelector.
  cbn. by rewrite Hnone.
Qed.

Lemma load_begin_params_throw (w : World) (slice : gmap string value) (e : exn) :
  store_state w !! name options = Some slice →
  loaderParams loaderParamsSelector (store_state w) = Throw e →
  begin w = (w, Throw e).
Proof.
  intros Hslice Hthrow.
  unfold load_begin, bind, getState, lift, selectLoading, selectStale, selectSlice,
    createSelector.
  cbn. rewrite Hslice. cbn. by rewrite Hthrow.
Qed.

(** The continuation after the [await] dispatches at most [fulfill]. *)
Lemma load_resume_effects (w : World) (p : value) (s : settlement) :
  previousParams (resume p s w).1 = previousParams w
  ∧ (trace (resume p s w).1 = trace w ∧ store_state (resume p s w).1 = store_state w
     ∨ ∃ d, s = Resolved d ∧ deepEqual (previousParams w) p = true
            ∧ trace (resume p s w).1 = trace w ++ [Dispatched (fulfilled d)]).
Proof.
  destruct s as [d|reason]; [|by split; [|left]].
  rewrite load_resume_resolved.
  destruct (deepEqual (previousParams w) p) eqn:E; [|by split; [|left]].
  rewrite dispatch_fulfill. split; [done|]. right. by exists d.
Qed.

(** X9: one invocation of the thunk calls the loader at most once and
    dispatches at most [makeLoading] followed by one [fulfill], the latter
    only with the data its own loader resolved to; the continuation after the
    [await] never writes [previousParams] and dispatches nothing but that
    [fulfill]. *)
Theorem load_effects_are_bounded (w : World) (s : settlement) :
  (∀ p, previousParams (resume p s w).1 = previousParams w
        ∧ (trace (resume p s w).1 = trace w
           ∨ ∃ d, s = Resolved d
                  ∧ trace (resume p s w).1 = trace w ++ [Dispatched (fulfilled d)]))
  ∧ ((run s w).1 = w
     ∨ (∃ p, trace (run s w).1
             = trace w ++ [Dispatched loadingAction; LoaderCalled p])
     ∨ (∃ p d, s = Resolved d
               ∧ trace (run s w).1
                 = trace w ++ [Dispatched loadingAction; LoaderCalled p;
                               Dispatched (fulfilled d)])).
Proof.
  split.
  - intros p. destruct (load_resume_effects w p s) as [Hprev [[Ht _]|(d & -> & _ & Ht)]].
    + split; [done|]. by left.
    + split; [done|]. right. by exists d.
  - unfold load, bind.
    destruct (store_state w !! name options) as [slice|] eqn:Hslice;
      [|rewrite load_begin_missing by done; by left].
    destruct (loaderParams loaderParamsSelector (store_state w)) as [params|e] eqn:Hparams;
      [|rewrite (load_begin_params_throw w slice e) by done; by left].
    rewrite (begin_eq w slice params Hslice Hparams).
    destruct (needsLoad _ _ _ _ _); [|by left]. right.
    match goal with |- context [resume params s ?w1] =>
      destruct (load_resume_effects w1 params s) as [_ [[Ht _]|(d & -> & _ & Ht)]]
    end.
    + left. exists params. by rewrite Ht.
    + right. exists params, d. split; [done|]. rewrite Ht. cbn [trace].
      by rewrite <- app_assoc.
Qed.

(** X10: a run that goes ahead and whose loader resolves, with parameters
    deep-equal to themselves, stores the data, clears both flags and leaves
    [previousParams] at its parameters; invoked again with the parameters
    unchanged, the thunk then does nothing. *)
Theorem completed_load_is_quiescent
    (w : World) (slice : gmap string value) (params d : value) :
  store_state w !! name options = Some slice →
  loaderParams loaderParamsSelector (store_state w) = Ok params →
  (truthy (field slice "stale") = true ∧ truthy (field slice "loading") = false)
  ∨ deepEqual (previousParams w) params = false →
  deepEqual params params = true →
  ∃ w' slice',
    run (Resolved d) w = (w', Ok tt)
    ∧ trace w' = trace w ++ [Dispatched loadingAction; LoaderCalled params;
                             Dispatched (fulfilled d)]
    ∧ previousParams w' = params
    ∧ store_state w' !! name options = Some slice'
    ∧ slice' !! "stale" = Some (VBool false)
    ∧ slice' !! "loading" = Some (VBool false)
    ∧ slice' !! "data" = Some d
    ∧ (∀ k, k ≠ "stale" → k ≠ "loading" → k ≠ "data" → slice' !! k = slice !! k)
    ∧ (loaderParams loaderParamsSelector (store_state w') = Ok params →
       begin w' = (w', Ok Returned)).
Proof.
  intros Hslice Hparams Hneeded Hrefl.
  apply (needsLoad_true_iff initialData) in Hneeded.
  unfold load, bind. rewrite (begin_eq w slice params Hslice Hparams), Hneeded.
  rewrite load_resume_resolved. cbn [previousParams]. rewrite Hrefl, dispatch_fulfill.
  cbn [store_state previousParams trace]. rewrite lookup_insert_eq. cbn [default from_option id].
  eexists _, _. split; [reflexivity|]. cbn [store_state previousParams trace].
  split; [by rewrite <- app_assoc|]. split; [done|].
  split; [by rewrite lookup_insert_eq|].
  split; [by simplify_map_eq|]. split; [by simplify_map_eq|]. split; [by simplify_map_eq|].
  split; [intros; by simplify_map_eq|].
  intros Hparams'.
  match goal with |- load_begin _ _ _ _ _ ?w' = _ =>
    rewrite (begin_eq w' _ params (lookup_insert_eq _ _ _) Hparams')
  end.
  cbn [previousParams]. unfold needsLoad, field. rewrite Hrefl.
  by simplify_map_eq.
Qed.

(** The parameters the hook selects are the ones the thunk selects. *)
Lemma hook_params (state : gmap string (gmap string value)) :
  default selectNull loaderParamsSelector state = loaderParams loaderParamsSelector state.
Proof. unfold loaderParams. by destruct loaderParamsSelector. Qed.

(** What a render that succeeds selected. *)
Lemma render_ok (state : gmap string (gmap string value))
    (hook : IUseMonitoredData) (eff : M suspension) :
  render state = Ok (hook, eff) →
  ∃ slice params,
    state !! name options = Some slice
    ∧ loaderParams loaderParamsSelector state = Ok params
    ∧ hook_data hook
      = (if truthy (field slice "stale") && truthy_opt (resetOnStale options)
         then initialData
         else if truthy (field slice "loading") && truthy_opt (resetOnLoading options)
              then initialData
              else field slice "data")
    ∧ hook_loading hook = or_js (field slice "stale") (field slice "loading")
    ∧ hook_makeStale hook = send staleAction
    ∧ eff = useMonitoredData_effect options initialData deepEqual loaderParamsSelector
              otherReducers (field slice "stale") (field slice "loading") params.
Proof.
  unfold useMonitoredData. intros Hrender.
  destruct (state !! name options) as [slice|] eqn:Hslice; last first.
  { by rewrite selectStale_missing in Hrender. }
  destruct (selectors_on_slice options initialData state slice Hslice)
    as (_ & Hs & Hl & Hd).
  rewrite Hs, Hl, Hd, hook_params in Hrender. cbn [rbind] in Hrender.
  destruct (loaderParams loaderParamsSelector state) as [params|e]; [|done].
  cbn [rbind] in Hrender. injection Hrender as <- <-.
  by exists slice, params.
Qed.

(** The render on a state that holds the slice and whose parameters can be
    selected. *)
Lemma render_eq (state : gmap string (gmap string value))
    (slice : gmap string value) (params : value) :
  state !! name options = Some slice →
  loaderParams loaderParamsSelector state = Ok params →
  render state
  = Ok ({| hook_data :=
             (if truthy (field slice "stale") && truthy_opt (resetOnStale options)
              then initialData
              else if truthy (field slice "loading") && truthy_opt (resetOnLoading options)
                   then initialData
                   else field slice "data");
           hook_loading := or_js (field slice "stale") (field slice "loading");
           hook_makeStale := send staleAction |},
        useMonitoredData_effect options initialData deepEqual loaderParamsSelector
          otherReducers (field slice "stale") (field slice "loading") params).
Proof.
  intros Hslice Hparams. unfold useMonitoredData.
  destruct (selectors_on_slice options initialData state slice Hslice)
    as (_ & -> & -> & ->).
  by rewrite hook_params, Hparams.
Qed.

(** X11: the hook's [loading] is truthy exactly when the slice is stale or
    loading, and when the hook reports not loading its [data] is the data
    stored in the slice, whatever the reset policies. *)
Theorem hook_not_loading_shows_stored_data
    (state : gmap string (gmap string value))
    (hook : IUseMonitoredData) (eff : M suspension) :
  render state = Ok (hook, eff) →
  ∃ slice,
    state !! name options = Some slice
    ∧ truthy (hook_loading hook)
      = truthy (field slice "stale") || truthy (field slice "loading")
    ∧ (truthy (hook_loading hook) = false → hook_data hook = field slice "data").
Proof.
  intros Hrender.
  apply render_ok in Hrender as (slice & params & Hslice & _ & Hdata & Hloading & _).
  exists slice. split; [done|]. rewrite Hloading, Hdata. unfold or_js.
  destruct (truthy (field slice "stale")) eqn:Hs; cbn.
  - by rewrite Hs.
  - split; [done|]. by intros ->.
Qed.

(** X12: the effect of a render made on the store's current state does what
    the thunk does: its own test of the condition never changes the outcome. *)
Theorem hook_effect_is_the_thunk
    (w : World) (hook : IUseMonitoredData) (eff : M suspension) :
  render (store_state w) = Ok (hook, eff) →
  eff w = begin w.
Proof.
  intros Hrender.
  apply render_ok in Hrender as (slice & params & Hslice & Hparams & _ & _ & _ & ->).
  unfold useMonitoredData_effect, bind, readPreviousParams. cbn -[load_begin].
  rewrite (begin_eq w slice params Hslice Hparams).
  destruct (needsLoad _ _ _ _ _) eqn:E; [|done].
  by rewrite (begin_eq w slice params Hslice Hparams), E.
Qed.

(** X13: the hook's [makeStale], called while the slice is not loading,
    dispatches [makeStale] and nothing else; the next invocation of the thunk
    then goes ahead and calls the loader, even with unchanged parameters. *)
Theorem hook_makeStale_on_idle_slice_reloads
    (w : World) (hook : IUseMonitoredData) (eff : M suspension)
    (slice : gmap string value) :
  render (store_state w) = Ok (hook, eff) →
  store_state w !! name options = Some slice →
  truthy (field slice "loading") = false →
  ∃ w1,
    hook_makeStale hook w = (w1, Ok tt)
    ∧ trace w1 = trace w ++ [Dispatched staleAction]
    ∧ previousParams w1 = previousParams w
    ∧ ∀ params1,
        loaderParams loaderParamsSelector (store_state w1) = Ok params1 →
        ∃ w2,
          begin w1 = (w2, Ok (Awaiting params1))
          ∧ trace w2 = trace w1 ++ [Dispatched loadingAction; LoaderCalled params1].
Proof.
  intros Hrender Hslice Hidle.
  apply render_ok in Hrender as (slice' & _ & _ & _ & _ & _ & -> & _).
  rewrite dispatch_makeStale, Hslice. cbn [default from_option id].
  set (slice1 := if truthy_opt (resetOnStale options)
                 then <["data" := initialData]> (<["stale" := VBool true]> slice)
                 else <["stale" := VBool true]> slice).
  assert (Hl : field slice1 "loading" = field slice "loading").
  { subst slice1. unfold field. destruct (truthy_opt _); by simplify_map_eq. }
  assert (Hs : field slice1 "stale" = VBool true).
  { subst slice1. unfold field. destruct (truthy_opt _); by simplify_map_eq. }
  eexists. split; [reflexivity|]. cbn [store_state previousParams trace].
  split; [done|]. split; [done|].
  intros params1 Hparams1.
  match goal with |- ∃ _, load_begin _ _ _ _ _ ?w1 = _ ∧ _ =>
    rewrite (begin_eq w1 slice1 params1 (lookup_insert_eq _ _ _) Hparams1)
  end.
  unfold needsLoad. rewrite Hs, Hl, Hidle. cbn [truthy negb andb orb].
  eexists. by split.
Qed.

(** X14: a [makeStale] dispatched while a load is in flight shows [stale]
    until that load resolves; its [fulfill] then clears [stale] again, and the
    next invocation of the thunk with unchanged parameters does not reload. *)
Theorem makeStale_during_load_is_cleared_by_fulfill
    (w : World) (slice : gmap string value) (params d : value) :
  store_state w !! name options = Some slice →
  loaderParams loaderParamsSelector (store_state w) = Ok params →
  (truthy (field slice "stale") = true ∧ truthy (field slice "loading") = false)
  ∨ deepEqual (previousParams w) params = false →
  deepEqual params params = true →
  ∃ w1 w2 w3 slice2 slice3,
    begin w = (w1, Ok (Awaiting params))
    ∧ send staleAction w1 = (w2, Ok tt)
    ∧ store_state w2 !! name options = Some slice2
    ∧ slice2 !! "stale" = Some (VBool true)
    ∧ slice2 !! "loading" = Some (VBool true)
    ∧ resume params (Resolved d) w2 = (w3, Ok tt)
    ∧ store_state w3 !! name options = Some slice3
    ∧ slice3 !! "stale" = Some (VBool false)
    ∧ slice3 !! "loading" = Some (VBool false)
    ∧ slice3 !! "data" = Some d
    ∧ (loaderParams loaderParamsSelector (store_state w3) = Ok params →
       begin w3 = (w3, Ok Returned)).
Proof.
  intros Hslice Hparams Hneeded Hrefl.
  apply (needsLoad_true_iff initialData) in Hneeded.
  rewrite (begin_eq w slice params Hslice Hparams), Hneeded.
  eexists _, _, _, _, _. split; [reflexivity|].
  rewrite dispatch_makeStale. cbn [store_state previousParams trace].
  rewrite lookup_insert_eq. cbn [default from_option id].
  split; [reflexivity|]. cbn [store_state].
  split; [by rewrite lookup_insert_eq|].
  split; [destruct (truthy_opt _); by simplify_map_eq|].
  split; [destruct (truthy_opt _); by simplify_map_eq|].
  rewrite load_resume_resolved. cbn [previousParams]. rewrite Hrefl, dispatch_fulfill.
  cbn [store_state previousParams trace]. rewrite lookup_insert_eq. cbn [default from_option id].
  split; [reflexivity|]. cbn [store_state].
  split; [by rewrite lookup_insert_eq|].
  split; [by simplify_map_eq|]. split; [by simplify_map_eq|]. split; [by simplify_map_eq|].
  intros Hparams'.
  match goal with |- load_begin _ _ _ _ _ ?w' = _ =>
    rewrite (begin_eq w' _ params (lookup_insert_eq _ _ _) Hparams')
  end.
  cbn [previousParams]. unfold needsLoad, field. rewrite Hrefl.
  by simplify_map_eq.
Qed.

(** X15: the recheck compares parameter values, not runs: when two suspended
    runs both hold parameters deep-equal to [previousParams], both results
    are fulfilled and the data of the one that resolves last is what the
    slice ends with. *)
Theorem last_resolution_wins_among_equal_params
    (w : World) (pA pB rA rB : value) :
  deepEqual (previousParams w) pA = true →
  deepEqual (previousParams w) pB = true →
  ∃ w' slice',
    settle_all options initialData deepEqual otherReducers
      [(pA, Resolved rA); (pB, Resolved rB)] w = w'
    ∧ trace w' = trace w ++ [Dispatched (fulfilled rA); Dispatched (fulfilled rB)]
    ∧ store_state w' !! name options = Some slice'
    ∧ slice' !! "data" = Some rB.
Proof.
  intros HA HB. cbn [settle_all].
  rewrite (load_resume_resolved options initialData deepEqual otherReducers w pA rA),
    HA, dispatch_fulfill.
  cbn [fst].
  rewrite load_resume_resolved. cbn [previousParams]. rewrite HB, dispatch_fulfill.
  cbn [fst store_state previousParams trace].
  eexists _, _. split; [reflexivity|]. cbn [store_state trace].
  split; [by rewrite <- app_assoc|].
  split; [by rewrite lookup_insert_eq|]. by simplify_map_eq.
Qed.

(** X16: without a parameter selector the loader is called with [null] and
    [previousParams] stays [null]; with [null] deep-equal to itself the thunk
    goes ahead exactly when the slice is stale and not loading, and a
    resolved load is always fulfilled. *)
Theorem load_without_params_selector (w : World) (slice : gmap string value) :
  previousParams w = VNull →
  deepEqual VNull VNull = true →
  store_state w !! name options = Some slice →
  (truthy (field slice "stale") = true ∧ truthy (field slice "loading") = false →
     ∃ w', load_begin options initialData deepEqual None otherReducers w
           = (w', Ok (Awaiting VNull))
       ∧ previousParams w' = VNull
       ∧ trace w' = trace w ++ [Dispatched loadingAction; LoaderCalled VNull])
  ∧ (¬ (truthy (field slice "stale") = true ∧ truthy (field slice "loading") = false) →
     load_begin options initialData deepEqual None otherReducers w = (w, Ok Returned))
  ∧ (∀ d, resume VNull (Resolved d) w = send (fulfilled d) w).
Proof.
  intros Hprev Hrefl Hslice.
  pose proof (load_begin_eq options initialData deepEqual None otherReducers
                w slice VNull Hslice eq_refl) as Hbegin.
  unfold needsLoad in Hbegin. rewrite Hprev, Hrefl in Hbegin. cbn [negb] in Hbegin.
  rewrite orb_false_r in Hbegin.
  split; [|split].
  - intros [Hs Hl]. rewrite Hbegin, Hs, Hl. cbn [negb andb].
    eexists. by split.
  - intros Hnot. rewrite Hbegin.
    destruct (truthy (field slice "stale")), (truthy (field slice "loading"));
      cbn; try done. by destruct Hnot.
  - intros d. by rewrite load_resume_resolved, Hprev, Hrefl.
Qed.

(** X17: on a store that holds the slice's initial state the hook reports
    loading and the initial data under every policy, and its effect starts
    the first load with the parameters selected from that state. *)
Theorem hook_on_fresh_store_starts_first_load
    (w : World) (hook : IUseMonitoredData) (eff : M suspension) :
  store_state w !! name options = Some (cso_initialState (sliceOptions options initialData)) →
  render (store_state w) = Ok (hook, eff) →
  hook_loading hook = VBool true
  ∧ hook_data hook = initialData
  ∧ ∃ w' params,
      loaderParams loaderParamsSelector (store_state w) = Ok params
      ∧ eff w = (w', Ok (Awaiting params))
      ∧ previousParams w' = params
      ∧ trace w' = trace w ++ [Dispatched loadingAction; LoaderCalled params].
Proof.
  intros Hfresh Hrender.
  assert (Hs : field (cso_initialState (sliceOptions options initialData)) "stale"
               = VBool true) by (unfold field; cbn; by simplify_map_eq).
  assert (Hl : field (cso_initialState (sliceOptions options initialData)) "loading"
               = VBool false) by (unfold field; cbn; by simplify_map_eq).
  assert (Hd : field (cso_initialState (sliceOptions options initialData)) "data"
               = initialData) by (unfold field; cbn; by simplify_map_eq).
  remember (cso_initialState (sliceOptions options initialData)) as init eqn:Hinit.
  apply render_ok in Hrender
    as (slice & params & Hslice & Hparams & Hdata & Hloading & _ & ->).
  rewrite Hfresh in Hslice. injection Hslice as <-.
  rewrite Hs, Hl in Hloading. rewrite Hs, Hl, Hd in Hdata.
  split; [done|].
  split; [rewrite Hdata; cbn; by destruct (truthy_opt _)|].
  unfold useMonitoredData_effect, bind, readPreviousParams. cbn -[load_begin].
  rewrite Hs, Hl. unfold needsLoad at 1. cbn [truthy negb andb orb].
  rewrite (begin_eq w init params Hfresh Hparams), Hs, Hl.
  unfold needsLoad. cbn [truthy negb andb orb].
  eexists _, params. by repeat split.
Qed.


End ReconciliationExtras.

(** ** The further properties at work on the widgets story *)

Module WidgetsChecks.

Import Widgets.

Lemma makeLoading_masks_widgets :
  ∃ next,
    sliceReducer options initialData (Some WidgetsReset.loadedSlice)
      (makeLoadingAction options initialData) = Ok next
    ∧ next !! "data" = Some (widgets 1)
    ∧ selectData options initialData (<["widgetsSlice" := next]> root1) = Ok initialData.
Proof.
  destruct (makeLoading_masks_data_without_storing options initialData root1
              WidgetsReset.loadedSlice VNull eq_refl)
    as (next & Hrun & Hdata & Hselect).
  exists next. split; [exact Hrun|]. split; [|exact Hselect].
  rewrite Hdata. vm_compute. reflexivity.
Defined.

Lemma makeStale_resets_widgets :
  ∃ next,
    sliceReducer WidgetsReset.options initialData (Some WidgetsReset.loadedSlice)
      (makeStaleAction WidgetsReset.options initialData) = Ok next
    ∧ next !! "data" = Some initialData
    ∧ selectData WidgetsReset.options initialData (<["widgetsSlice" := next]> root1)
      = Ok initialData.
Proof.
  exact (makeStale_stores_and_selects_initial WidgetsReset.options initialData root1
           WidgetsReset.loadedSlice VNull eq_refl).
Defined.



Lemma first_load_completes_widgets :
  ∃ w' slice',
    load options initialData deepEqual (Some selectedFactory) otherReducers
      (Resolved (widgets 1)) world1 = (w', Ok tt)
    ∧ previousParams w' = VNum 1
    ∧ store_state w' !! "widgetsSlice" = Some slice'
    ∧ slice' !! "data" = Some (widgets 1)
    ∧ load_begin options initialData deepEqual (Some selectedFactory) otherReducers w'
      = (w', Ok Returned).
Proof.
  destruct (completed_load_is_quiescent options initialData deepEqual
              (Some selectedFactory) otherReducers world1
              (cso_initialState (sliceOptions options initialData)) (VNum 1) (widgets 1))
    as (w' & slice' & Hrun & _ & Hprev & Hslice & _ & _ & Hdata & _ & Hquiet).
  - vm_compute. reflexivity.
  - vm_compute. reflexivity.
  - left. vm_compute. split; reflexivity.
  - vm_compute. reflexivity.
  - exists w', slice'. repeat split; try assumption.
    apply Hquiet.
    assert (Hw : w' = (load options initialData deepEqual (Some selectedFactory)
                         otherReducers (Resolved (widgets 1)) world1).1)
      by (by rewrite Hrun).
    rewrite Hw. vm_compute. reflexivity.
Defined.

Lemma hook_shows_loaded_widgets :
  ∃ hook eff slice,
    useMonitoredData options initialData deepEqual (Some selectedFactory) otherReducers
      WidgetsReset.loadedRoot = Ok (hook, eff)
    ∧ WidgetsReset.loadedRoot !! name options = Some slice
    ∧ truthy (hook_loading hook)
      = truthy (field slice "stale") || truthy (field slice "loading")
    ∧ (truthy (hook_loading hook) = false → hook_data hook = field slice "data").
Proof.
  pose proof (render_eq options initialData deepEqual (Some selectedFactory) otherReducers
                WidgetsReset.loadedRoot WidgetsReset.loadedSlice (VNum 1)
                ltac:(vm_compute; reflexivity) ltac:(vm_compute; reflexivity)) as E.
  destruct (hook_not_loading_shows_stored_data options initialData deepEqual
              (Some selectedFactory) otherReducers _ _ _ E)
    as (slice & Hslice & Hloading & Hdata).
  eexists _, _, slice. split; [exact E|]. split; [exact Hslice|].
  split; [exact Hloading | exact Hdata].
Defined.

Lemma hook_effect_is_the_thunk_widgets :
  ∃ hook eff,
    useMonitoredData options initialData deepEqual (Some selectedFactory) otherReducers
      (store_state world3) = Ok (hook, eff)
    ∧ eff world3
      = load_begin options initialData deepEqual (Some selectedFactory) otherReducers world3.
Proof.
  pose proof (render_eq options initialData deepEqual (Some selectedFactory) otherReducers
                (store_state world3) loadingSlice (VNum 2)
                ltac:(vm_compute; reflexivity) ltac:(vm_compute; reflexivity)) as E.
  eexists _, _. split; [exact E|].
  exact (hook_effect_is_the_thunk options initialData deepEqual
           (Some selectedFactory) otherReducers world3 _ _ E).
Defined.

Lemma hook_makeStale_reloads_widgets :
  ∃ hook eff w1,
    useMonitoredData options initialData deepEqual (Some selectedFactory) otherReducers
      WidgetsReset.loadedRoot = Ok (hook, eff)
    ∧ hook_makeStale hook
        WidgetsReset.loadedWorld = (w1, Ok tt)
    ∧ trace w1 = [Dispatched (makeStaleAction options initialData)].
Proof.
  pose proof (render_eq options initialData deepEqual (Some selectedFactory) otherReducers
                WidgetsReset.loadedRoot
                WidgetsReset.loadedSlice (VNum 1)
                ltac:(vm_compute; reflexivity) ltac:(vm_compute; reflexivity)) as E.
  destruct (hook_makeStale_on_idle_slice_reloads options initialData deepEqual
              (Some selectedFactory) otherReducers
              WidgetsReset.loadedWorld
              _ _ WidgetsReset.loadedSlice E)
    as (w1 & Hrun & Htrace & _).
  - vm_compute. reflexivity.
  - vm_compute. reflexivity.
  - eexists _, _, w1. split; [exact E|]. split; [exact Hrun | exact Htrace].
Defined.

Lemma makeStale_during_load_widgets :
  ∃ w3 slice3,
    store_state w3 !! "widgetsSlice" = Some slice3
    ∧ slice3 !! "stale" = Some (VBool false)
    ∧ slice3 !! "data" = Some (widgets 1).
Proof.
  destruct (makeStale_during_load_is_cleared_by_fulfill options initialData deepEqual
              (Some selectedFactory) otherReducers world1
              (cso_initialState (sliceOptions options initialData)) (VNum 1) (widgets 1))
    as (_ & _ & w3 & _ & slice3 & _ & _ & _ & _ & _ & _ & Hslice & Hstale & _ & Hdata & _).
  - vm_compute. reflexivity.
  - vm_compute. reflexivity.
  - left. vm_compute. split; reflexivity.
  - vm_compute. reflexivity.
  - exists w3, slice3. repeat split; assumption.
Defined.

Lemma last_resolution_wins_widgets :
  ∃ w' slice',
    settle_all options initialData deepEqual otherReducers
      [(VNum 1, Resolved (widgets 1)); (VNum 1, Resolved (widgets 2))] world2 = w'
    ∧ store_state w' !! "widgetsSlice" = Some slice'
    ∧ slice' !! "data" = Some (widgets 2).
Proof.
  destruct (last_resolution_wins_among_equal_params options initialData deepEqual
              otherReducers world2 (VNum 1) (VNum 1) (widgets 1) (widgets 2))
    as (w' & slice' & Hrun & _ & Hslice & Hdata).
  - vm_compute. reflexivity.
  - vm_compute. reflexivity.
  - exists w', slice'. repeat split; assumption.
Defined.

Lemma load_without_selector_widgets :
  ∃ w',
    load_begin options initialData deepEqual None otherReducers world1
    = (w', Ok (Awaiting VNull))
    ∧ previousParams w' = VNull.
Proof.
  destruct (load_without_params_selector options initialData deepEqual otherReducers
              world1 (cso_initialState (sliceOptions options initialData)))
    as [Hgo _].
  - vm_compute. reflexivity.
  - vm_compute. reflexivity.
  - vm_compute. reflexivity.
  - destruct Hgo as (w' & Hrun & Hprev & _).
    + vm_compute. split; reflexivity.
    + exists w'. split; [exact Hrun | exact Hprev].
Defined.


Lemma hook_on_fresh_store_widgets :
  ∃ hook eff w',
    useMonitoredData options initialData deepEqual (Some selectedFactory) otherReducers
      (store_state world1) = Ok (hook, eff)
    ∧ hook_loading hook = VBool true
    ∧ hook_data hook = initialData
    ∧ eff world1 = (w', Ok (Awaiting (VNum 1))).
Proof.
  pose proof (render_eq options initialData deepEqual (Some selectedFactory) otherReducers
                (store_state world1) (cso_initialState (sliceOptions options initialData))
                (VNum 1)
                ltac:(vm_compute; reflexivity) ltac:(vm_compute; reflexivity)) as E.
  destruct (hook_on_fresh_store_starts_first_load options initialData deepEqual
              (Some selectedFactory) otherReducers world1 _ _
              ltac:(vm_compute; reflexivity) E)
    as (Hloading & Hdata & w' & params & Hparams & Hrun & _).
  eexists _, _, w'. split; [exact E|].
  split; [exact Hloading|]. split; [exact Hdata|].
  vm_compute in Hparams. injection Hparams as <-. exact Hrun.
Defined.

End WidgetsChecks.
